(** * RAGFIN1: the route handlers of [main.py]

    A shallow embedding of the FastAPI handlers of [RAGFIN1_DEPLOY/main.py]
    and the properties the service's specification states about them.

    Every handler is an [async def] that may read the clock
    ([datetime.utcnow().isoformat()]) and, for [/api/v1/query], call the
    Groq chat-completion service.  Both are inputs from outside the program,
    so a handler is embedded as a tree of such requests ([handler]) and run
    against a [World] that answers them; the run returns what the handler
    returned or raised together with the list of requests it made. *)

From Stdlib Require Import ZArith NArith String Ascii List Bool Lia.
From Stdlib Require Import Floats.PrimFloat.
From stdpp Require Import base option gmap strings.

Set Warnings "-inexact-float,-register-all".
Open Scope string_scope.

(** ** Python values *)

(** A Python [float] is an IEEE-754 binary64 number: the primitive floats,
    with the same rounding of decimal literals and of [*] and [-]. *)
Abbreviation pyfloat := PrimFloat.float.

(** [typing.Any], as far as a JSON body can populate it. *)
Inductive Any : Type :=
| ANone
| ABool (b : bool)
| AInt (z : Z)
| AFloat (f : pyfloat)
| AStr (s : string)
| AList (l : list Any)
| ADict (d : gmap string Any).

(** A dictionary literal [{k1: v1, ...}] with distinct keys. *)
Abbreviation dict := (@list_to_map string _ (gmap string _) _ _).

(** [len(l)] for a list. *)
Definition len {A} (l : list A) : Z := Z.of_nat (List.length l).

(** [bool(x)] for [x : Optional[Dict[str, Any]]]: [None] and the empty
    dictionary are falsy, every other dictionary is truthy. *)
Definition bool_of_context (x : option (gmap string Any)) : bool :=
  match x with
  | None => false
  | Some d => negb (Nat.eqb (size d) 0)
  end.

(** [bool(x)] for [x : Optional[str]], as in [if os.getenv(...)]. *)
Definition bool_of_getenv (x : option string) : bool :=
  match x with
  | None => false
  | Some s => negb (Nat.eqb (String.length s) 0)
  end.

(** ** Strings *)

(** [str.lower()], character by character.  A [string] here is a Python
    [str] whose code points are below 256 (ASCII and Latin-1), where
    lower-casing maps A-Z and the capitals U+00C0-U+00DE (but U+00D7, the
    multiplication sign) thirty-two places up and keeps the rest. *)
Definition lower_char (c : ascii) : ascii :=
  let n := N_of_ascii c in
  if ((65 <=? n) && (n <=? 90) || (192 <=? n) && (n <=? 222) && negb (n =? 215))%N
  then ascii_of_N (n + 32)
  else c.

Fixpoint lower (s : string) : string :=
  match s with
  | EmptyString => EmptyString
  | String c s' => String (lower_char c) (lower s')
  end.

(** [sub in s] on strings: [sub] starts at some position of [s]. *)
Fixpoint str_in (sub s : string) : bool :=
  if String.prefix sub s then true
  else match s with
       | EmptyString => false
       | String _ s' => str_in sub s'
       end.

(** Whether the character [-], which [get_exchange_rates] puts between
    the two currencies, occurs in [s]. *)
Fixpoint has_dash (s : string) : bool :=
  match s with
  | EmptyString => false
  | String c s' => Ascii.eqb c "-" || has_dash s'
  end.

(** What "contains as a substring" means. *)
Definition substring_of (sub s : string) : Prop :=
  exists pre post : string, s = pre +:+ sub +:+ post.

(** ** Exceptions *)

(** An exception object (an instance of [Exception], which is what the
    libraries called here raise), as far as the handlers look at it: its
    class name and the text [str(e)] gives. *)
Record Exception := mkException {
  exc_class : string;
  str : string
}.

Record HTTPException := {
  status_code : Z;
  detail : string
}.

(** ** The Groq client and its chat-completion call *)

Record Groq := { api_key : option string }.

(** The keyword arguments of [chat.completions.create]. *)
Record ChatArgs := {
  messages : list (gmap string string);
  model : string;
  temperature : pyfloat;
  max_tokens : Z
}.

(** The part of the returned object the handler reads:
    [chat_completion.choices[0].message.content], an [Optional[str]]. *)
Record CompletionMessage := { content : option string }.
Record Choice := { message : CompletionMessage }.
Record ChatCompletion := { choices : list Choice }.

(** ** Handlers as request trees *)

Inductive handler (E A : Type) : Type :=
| Ret (a : A)
| Raise (e : E)
| UtcNow (k : string -> handler E A)
| ChatCreate (client : Groq) (args : ChatArgs)
             (k : Exception + ChatCompletion -> handler E A).

Arguments Ret {E A} a.
Arguments Raise {E A} e.
Arguments UtcNow {E A} k.
Arguments ChatCreate {E A} client args k.

Fixpoint bind {E A B} (m : handler E A) (f : A -> handler E B) : handler E B :=
  match m with
  | Ret a => f a
  | Raise e => Raise e
  | UtcNow k => UtcNow (fun t => bind (k t) f)
  | ChatCreate c a k => ChatCreate c a (fun r => bind (k r) f)
  end.

(** stdpp's monad notation [x ← m; k] for [bind m (fun x => k)]. *)
#[global] Instance handler_ret {E} : MRet (handler E) := fun A a => Ret a.
#[global] Instance handler_bind {E} : MBind (handler E) := fun A B f m => bind m f.

(** [try: m  except Exception as e: h e]. *)
Fixpoint try_except {E E' A} (m : handler E A) (h : E -> handler E' A)
  : handler E' A :=
  match m with
  | Ret a => Ret a
  | Raise e => h e
  | UtcNow k => UtcNow (fun t => try_except (k t) h)
  | ChatCreate c a k => ChatCreate c a (fun r => try_except (k r) h)
  end.

(** [datetime.utcnow().isoformat()]. *)
Definition utcnow_isoformat {E} : handler E string := UtcNow Ret.

(** [client.chat.completions.create] with keyword arguments: returns the completion or
    raises what the library raised. *)
Definition chat_completions_create (client : Groq) (args : ChatArgs)
  : handler Exception ChatCompletion :=
  ChatCreate client args
    (fun r => match r with inl e => Raise e | inr c => Ret c end).

(** ** Running a handler *)

(** The outside of the program: what the clock shows and what the Groq
    service does at the [n]-th request made since the process started. *)
Record World := {
  clock : nat -> string;
  groq : nat -> Groq -> ChatArgs -> Exception + ChatCompletion
}.

Inductive Event : Type :=
| EvUtcNow (t : string)
| EvChatCreate (client : Groq) (args : ChatArgs) (r : Exception + ChatCompletion).

Inductive outcome (E A : Type) : Type :=
| Returned (a : A)
| Raised (e : E).

Arguments Returned {E A} a.
Arguments Raised {E A} e.

Fixpoint run {E A} (m : handler E A) (w : World) (n : nat)
  : outcome E A * list Event :=
  match m with
  | Ret a => (Returned a, [])
  | Raise e => (Raised e, [])
  | UtcNow k =>
      let t := clock w n in
      let '(o, tr) := run (k t) w (S n) in
      (o, EvUtcNow t :: tr)
  | ChatCreate c a k =>
      let r := groq w n c a in
      let '(o, tr) := run (k r) w (S n) in
      (o, EvChatCreate c a r :: tr)
  end.

(** The value under [key] of the dictionary a run returned. *)
Definition field {E} (key : string)
    (res : outcome E (gmap string Any) * list Event) : option Any :=
  match fst res with
  | Returned r => r !! key
  | Raised _ => None
  end.

(** The calls to the Groq service among the requests of a run. *)
Definition chat_calls (tr : list Event) : list ChatArgs :=
  omap (fun ev => match ev with
                  | EvChatCreate _ a _ => Some a
                  | EvUtcNow _ => None
                  end) tr.

(** ** Process start *)

(** The module-level [groq_client]: [None] unless [GROQ_API_KEY] is set to
    a non-empty value. *)
Definition groq_client (getenv : string -> option string) : option Groq :=
  if bool_of_getenv (getenv "GROQ_API_KEY")
  then Some {| api_key := getenv "GROQ_API_KEY" |}
  else None.

(** ** [POST /api/v1/query] *)

Record QueryRequest := {
  question : string;
  context : option (gmap string Any)
}.

Record QueryResponse := {
  answer : string;
  intent : string;
  sources : list string;
  context_used : bool;
  confidence : pyfloat;
  timestamp : string
}.

(** [l[0]]. *)
Definition getitem0 {A} (l : list A) : handler Exception A :=
  match l with
  | x :: _ => Ret x
  | [] => Raise (mkException "IndexError" "list index out of range")
  end.

Definition system_prompt : string :=
  "You are RAGFIN1, an expert on international remittances, money transfers, and financial services for the Americas. Provide accurate, helpful information about sending money internationally, comparing providers, exchange rates, and regulations.".

Section Query.

(** What [str(e)] gives for the [ValidationError] pydantic raises when
    [answer] is [None]; the wording is pydantic's. *)
Variable answer_none_text : string.

(** [QueryResponse(answer=..., ...)]: the model validates its fields, and
    of the values the handler passes only [answer] can be ill-typed. *)
Definition new_QueryResponse (answer : option string) (intent : string)
    (sources : list string) (context_used : bool) (confidence : pyfloat)
    (timestamp : string) : handler Exception QueryResponse :=
  match answer with
  | Some a =>
      Ret {| answer := a; intent := intent; sources := sources;
             context_used := context_used; confidence := confidence;
             timestamp := timestamp |}
  | None => Raise (mkException "ValidationError" answer_none_text)
  end.

Definition chat_args (request : QueryRequest) : ChatArgs :=
  {| messages :=
       [ dict [("role", "system"); ("content", system_prompt)];
         dict [("role", "user"); ("content", question request)] ];
     model := "llama-3.3-70b-versatile";
     temperature := 0.7%float;
     max_tokens := 1000 |}.

(** The handler; the module-level [groq_client] it reads is its first
    argument.  A [Groq] object is truthy, so [not groq_client] holds exactly
    for [None]. *)
Definition query (groq_client : option Groq) (request : QueryRequest)
  : handler HTTPException QueryResponse :=
  try_except
    (match groq_client with
     | None =>
         now ← utcnow_isoformat;
         new_QueryResponse
           (Some ("I received your question: '" +:+ question request
                  +:+ "'. To provide AI-powered answers, please configure GROQ_API_KEY."))
           "informational"
           ["system"]
           false
           0.5%float
           now
     | Some client =>
         chat_completion ← chat_completions_create client (chat_args request);
         choice ← getitem0 (choices chat_completion);
         let answer := content (message choice) in
         now ← utcnow_isoformat;
         new_QueryResponse
           answer
           (if str_in "compare" (lower (question request))
            then "comparison" else "informational")
           ["groq_ai"; "general_knowledge"]
           (bool_of_context (context request))
           0.85%float
           now
     end)
    (fun e => Raise {| status_code := 500; detail := str e |}).

End Query.

(** ** The handlers over fixed tables *)

Definition get_providers : handler HTTPException (gmap string Any) :=
  let providers :=
    [ ADict (dict [("id", AStr "wise"); ("name", AStr "Wise");
                   ("countries", AList [AStr "USA"; AStr "UK"; AStr "EU"; AStr "MEX"; AStr "COL"])]);
      ADict (dict [("id", AStr "remitly"); ("name", AStr "Remitly");
                   ("countries", AList [AStr "USA"; AStr "MEX"; AStr "PHL"; AStr "IND"])]);
      ADict (dict [("id", AStr "western_union"); ("name", AStr "Western Union");
                   ("countries", AList [AStr "Worldwide"])]);
      ADict (dict [("id", AStr "moneygram"); ("name", AStr "MoneyGram");
                   ("countries", AList [AStr "Worldwide"])]);
      ADict (dict [("id", AStr "xoom"); ("name", AStr "Xoom");
                   ("countries", AList [AStr "USA"; AStr "MEX"; AStr "PHL"; AStr "IND"])]) ] in
  Ret (dict [("providers", AList providers); ("total", AInt (len providers))]).

Definition get_countries : handler HTTPException (gmap string Any) :=
  let countries :=
    [ ADict (dict [("code", AStr "USA"); ("name", AStr "United States")]);
      ADict (dict [("code", AStr "MEX"); ("name", AStr "Mexico")]);
      ADict (dict [("code", AStr "COL"); ("name", AStr "Colombia")]);
      ADict (dict [("code", AStr "BRA"); ("name", AStr "Brazil")]);
      ADict (dict [("code", AStr "ARG"); ("name", AStr "Argentina")]) ] in
  Ret (dict [("countries", AList countries); ("total", AInt (len countries))]).

Definition compare_providers (amount : pyfloat) (from_country to_country : string)
  : handler HTTPException (gmap string Any) :=
  Ret (dict
    [ ("comparison", AList
         [ ADict (dict
             [ ("provider", AStr "Wise");
               ("fee", AFloat (amount * 0.01));
               ("exchange_rate", AFloat 17.5);
               ("total_received", AFloat (amount * 17.5 - (amount * 0.01)));
               ("delivery_time", AStr "1-2 days") ]);
           ADict (dict
             [ ("provider", AStr "Remitly");
               ("fee", AFloat 3.99);
               ("exchange_rate", AFloat 17.3);
               ("total_received", AFloat (amount * 17.3 - 3.99));
               ("delivery_time", AStr "minutes") ]) ]);
      ("best_rate", AStr "Wise");
      ("fastest", AStr "Remitly") ]).

(** [priority] has the default ["cost"]: [None] is the parameter left out. *)
Definition get_recommendation (amount : pyfloat) (from_country to_country : string)
    (priority : option string) : handler HTTPException (gmap string Any) :=
  let priority := default "cost" priority in
  Ret (dict
    [ ("recommendation", ADict (dict
         [ ("provider", AStr (if String.eqb priority "cost" then "Wise" else "Remitly"));
           ("reason", AStr ("Best option for " +:+ priority));
           ("estimated_cost",
            AFloat (if String.eqb priority "cost" then amount * 0.01 else 3.99)) ])) ]).

Definition rates : gmap string Any :=
  dict [ ("USD-MXN", AFloat 17.5);
         ("USD-COL", AInt 4200);
         ("USD-BRL", AFloat 5.2) ].

Definition get_exchange_rates (from_currency to_currency : string)
  : handler HTTPException (gmap string Any) :=
  let key := from_currency +:+ "-" +:+ to_currency in
  now ← utcnow_isoformat;
  Ret (dict
    [ ("from", AStr from_currency);
      ("to", AStr to_currency);
      ("rate", default (AFloat 1.0) (rates !! key));
      ("timestamp", AStr now) ]).

(** ** [GET /] and [GET /api/v1/regulations] *)

Definition root : handler HTTPException (gmap string Any) :=
  Ret (dict
    [ ("status", AStr "healthy");
      ("service", AStr "RAGFIN1");
      ("version", AStr "1.0.0");
      ("message", AStr "Welcome to RAGFIN1 API") ]).

Definition get_regulations (country : string)
  : handler HTTPException (gmap string Any) :=
  now ← utcnow_isoformat;
  Ret (dict
    [ ("country", AStr country);
      ("regulations", AList
         [ AStr "Maximum single transfer limit";
           AStr "KYC requirements";
           AStr "Tax implications" ]);
      ("updated", AStr now) ]).

(** ** Reading runs and responses *)

(** The clock readings among the requests of a run. *)
Definition clock_reads (tr : list Event) : list string :=
  omap (fun ev => match ev with
                  | EvUtcNow t => Some t
                  | EvChatCreate _ _ _ => None
                  end) tr.

(** [x[key]] for an entry of a returned list, when [x] is a dictionary. *)
Definition item (key : string) (x : Any) : option Any :=
  match x with
  | ADict d => d !! key
  | _ => None
  end.

(** A run that returns a value and never calls the Groq service. *)
Definition returns_without_chat {E A} (res : outcome E A * list Event) : Prop :=
  (exists a, fst res = Returned a) /\ chat_calls (snd res) = [].

(** Two responses of [query] that agree on all but [context_used]. *)
Definition same_but_context_used (r1 r2 : QueryResponse) : Prop :=
  answer r1 = answer r2 /\ intent r1 = intent r2 /\ sources r1 = sources r2 /\
  confidence r1 = confidence r2 /\ timestamp r1 = timestamp r2.

(** The names under which a run of [get_providers] lists its providers. *)
Definition listed_names (res : outcome HTTPException (gmap string Any) * list Event)
  : list (option Any) :=
  match field "providers" res with
  | Some (AList ps) => map (item "name") ps
  | _ => []
  end.

(** An entry of the comparison whose [total_received] is
    [amount * exchange_rate - fee], computed as the handler does. *)
Definition consistent_quote (amount : pyfloat) (entry : Any) : Prop :=
  exists fee rate total : pyfloat,
    item "fee" entry = Some (AFloat fee) /\
    item "exchange_rate" entry = Some (AFloat rate) /\
    item "total_received" entry = Some (AFloat total) /\
    total = (amount * rate - fee)%float.

(** ** Sample inputs

    A world whose clock stands still and whose Groq service always does
    [r], and the completion with the single answer [a]. *)

Definition still_world (r : Exception + ChatCompletion) : World :=
  {| clock := fun _ => "2025-01-01T00:00:00";
     groq := fun _ _ _ => r |}.

Definition completion_of (a : option string) : ChatCompletion :=
  {| choices := [ {| message := {| content := a |} |} ] |}.

Definition sample_client : Groq := {| api_key := Some "gsk_test" |}.

(** * Properties *)

(** ** Lower-casing *)

Example lower_ascii : lower "Please COMPARE Wise & Remitly!" = "please compare wise & remitly!".
Proof. reflexivity. Qed.

Example lower_char_bounds :
  map lower_char ["@"; "A"; "Z"; "["; "`"; "a"; "z"; "{"]%char
  = ["@"; "a"; "z"; "["; "`"; "a"; "z"; "{"]%char.
Proof. reflexivity. Qed.

Example lower_char_latin1 :
  map (fun k => N_of_ascii (lower_char (ascii_of_N k)))
      [191; 192; 214; 215; 216; 222; 223; 255]%N
  = [191; 224; 246; 215; 248; 254; 223; 255]%N.
Proof. reflexivity. Qed.

(** ** Substring test *)

Lemma append_String (c : ascii) (a b : string) :
  String c a +:+ b = String c (a +:+ b).
Proof. reflexivity. Qed.

Lemma append_empty (b : string) : "" +:+ b = b.
Proof. reflexivity. Qed.

Lemma prefix_app (a b : string) :
  String.prefix a b = true <-> exists post, b = a +:+ post.
Proof.
  revert b. induction a as [|c a IH]; intros b.
  - split; [intros _; exists b; reflexivity | intros _; destruct b; reflexivity].
  - destruct b as [|d b]; simpl.
    + split; [discriminate | intros [post H]; discriminate].
    + destruct (ascii_dec c d) as [->|Hne].
      * rewrite IH. split; intros [post H]; exists post.
        -- rewrite append_String. now rewrite H.
        -- rewrite append_String in H. now inversion H.
      * split; [discriminate|].
        intros [post H]. rewrite append_String in H. congruence.
Qed.

Lemma str_in_unfold (sub s : string) :
  str_in sub s =
  if String.prefix sub s then true
  else match s with
       | EmptyString => false
       | String _ s' => str_in sub s'
       end.
Proof. destruct s; reflexivity. Qed.

Lemma str_in_spec (sub s : string) :
  str_in sub s = true <-> substring_of sub s.
Proof.
  unfold substring_of. induction s as [|c s IH].
  - rewrite str_in_unfold.
    destruct (String.prefix sub "") eqn:Hp.
    + split; [intros _| reflexivity].
      apply prefix_app in Hp as [post Hp]. exists "", post. exact Hp.
    + split; [discriminate|]. intros ([|? pre] & post & H); [|discriminate].
      assert (String.prefix sub "" = true) by (apply prefix_app; eauto).
      congruence.
  - rewrite str_in_unfold.
    destruct (String.prefix sub (String c s)) eqn:Hp.
    + split; [intros _| reflexivity].
      apply prefix_app in Hp as [post Hp]. exists "", post. exact Hp.
    + rewrite IH. split.
      * intros (pre & post & ->). exists (String c pre), post. reflexivity.
      * intros ([|d pre] & post & H).
        -- assert (String.prefix sub (String c s) = true)
             by (apply prefix_app; eauto).
           congruence.
        -- rewrite append_String in H. inversion H. eauto.
Qed.

Lemma str_in_false (sub s : string) :
  str_in sub s = false <-> ~ substring_of sub s.
Proof.
  rewrite <- str_in_spec. destruct (str_in sub s); split; congruence.
Qed.

(** ** Truthiness of the optional context *)

Lemma bool_of_context_true (x : option (gmap string Any)) :
  bool_of_context x = true <-> exists d, x = Some d /\ d <> ∅.
Proof.
  destruct x as [d|]; simpl.
  - rewrite negb_true_iff, Nat.eqb_neq, map_size_empty_iff.
    split; [eauto | intros (d' & [= <-] & H); exact H].
  - split; [discriminate | intros (d & H & _); discriminate].
Qed.

(** ** Runs of [query] *)

Section QueryRuns.

Variable answer_none_text : string.
Variables (w : World) (n : nat).

Lemma run_query_fallback (request : QueryRequest) :
  run (query answer_none_text None request) w n =
  (Returned
     {| answer := "I received your question: '" +:+ question request
          +:+ "'. To provide AI-powered answers, please configure GROQ_API_KEY.";
        intent := "informational";
        sources := ["system"];
        context_used := false;
        confidence := 0.5%float;
        timestamp := clock w n |},
   [EvUtcNow (clock w n)]).
Proof. reflexivity. Qed.

Lemma run_query_success (client : Groq) (request : QueryRequest)
    (completion : ChatCompletion) (choice : Choice) (rest : list Choice)
    (a : string) :
  groq w n client (chat_args request) = inr completion ->
  choices completion = choice :: rest ->
  content (message choice) = Some a ->
  run (query answer_none_text (Some client) request) w n =
  (Returned
     {| answer := a;
        intent := if str_in "compare" (lower (question request))
                  then "comparison" else "informational";
        sources := ["groq_ai"; "general_knowledge"];
        context_used := bool_of_context (context request);
        confidence := 0.85%float;
        timestamp := clock w (S n) |},
   [EvChatCreate client (chat_args request) (inr completion);
    EvUtcNow (clock w (S n))]).
Proof.
  intros Hcall Hchoices Hcontent. cbn.
  rewrite Hcall. cbn. rewrite Hchoices. cbn. rewrite Hcontent. reflexivity.
Qed.

Lemma run_query_raises (client : Groq) (request : QueryRequest) (e : Exception) :
  groq w n client (chat_args request) = inl e ->
  run (query answer_none_text (Some client) request) w n =
  (Raised {| status_code := 500; detail := str e |},
   [EvChatCreate client (chat_args request) (inl e)]).
Proof. intros Hcall. cbn. rewrite Hcall. reflexivity. Qed.

End QueryRuns.

(** ** [POST /api/v1/query] *)

(** C1, as stated, fails: without a credential the handler answers a
    question that contains "compare" with intent "informational". *)
Lemma query_intent_fallback_counterexample :
  let request := {| question := "Compare Wise and Remitly"; context := None |} in
  str_in "compare" (lower (question request)) = true /\
  exists r,
    fst (run (query "" None request) (still_world (inr (completion_of (Some "ok")))) 0)
      = Returned r /\
    intent r = "informational" /\
    intent r <> "comparison".
Proof.
  split; [reflexivity|].
  eexists. split; [reflexivity|]. split; [reflexivity | discriminate].
Qed.

(** C1, amended: with a client and a call that returns an answer, the
    response's intent is "comparison" when the lower-cased question contains
    "compare" and "informational" when it does not; without a client the
    intent is "informational" whatever the question. *)
Theorem query_intent (answer_none_text : string) (w : World) (n : nat)
    (request : QueryRequest) :
  (exists r,
     fst (run (query answer_none_text None request) w n) = Returned r /\
     intent r = "informational") /\
  (forall client completion choice rest a,
     groq w n client (chat_args request) = inr completion ->
     choices completion = choice :: rest ->
     content (message choice) = Some a ->
     exists r,
       fst (run (query answer_none_text (Some client) request) w n) = Returned r /\
       (substring_of "compare" (lower (question request)) ->
        intent r = "comparison") /\
       (~ substring_of "compare" (lower (question request)) ->
        intent r = "informational")).
Proof.
  split.
  - rewrite run_query_fallback. eexists. split; reflexivity.
  - intros client completion choice rest a Hcall Hchoices Hcontent.
    rewrite (run_query_success _ _ _ _ _ _ _ _ _ Hcall Hchoices Hcontent).
    eexists. split; [reflexivity|]. cbn. split.
    + intros H. apply str_in_spec in H. now rewrite H.
    + intros H. apply str_in_false in H. now rewrite H.
Qed.

Lemma query_intent_witness :
  exists r,
    fst (run (query "" (Some sample_client)
                {| question := "COMPARE fees to Mexico"; context := None |})
             (still_world (inr (completion_of (Some "ok")))) 0) = Returned r /\
    intent r = "comparison".
Proof.
  destruct (query_intent "" (still_world (inr (completion_of (Some "ok")))) 0
              {| question := "COMPARE fees to Mexico"; context := None |})
    as [_ H].
  destruct (H sample_client (completion_of (Some "ok"))
              {| message := {| content := Some "ok" |} |} [] "ok"
              eq_refl eq_refl eq_refl) as (r & Hr & Hyes & _).
  exists r. split; [exact Hr|].
  apply Hyes. exists "", " fees to mexico". reflexivity.
Defined.

(** C2, as stated, fails: a context that is supplied and not null, the
    empty object, gives [context_used = false]. *)
Lemma query_context_empty_counterexample :
  let request := {| question := "How do I send money?"; context := Some ∅ |} in
  context request <> None /\
  exists r,
    fst (run (query "" (Some sample_client) request)
             (still_world (inr (completion_of (Some "ok")))) 0) = Returned r /\
    context_used r = false.
Proof.
  split; [discriminate|]. eexists. split; reflexivity.
Qed.

(** C2, amended: with a client and a call that returns an answer,
    [context_used] is true exactly when a context with at least one key was
    supplied; it is false when the context is left out, null or empty. *)
Theorem query_context_used (answer_none_text : string) (w : World) (n : nat)
    (client : Groq) (request : QueryRequest)
    (completion : ChatCompletion) (choice : Choice) (rest : list Choice)
    (a : string) :
  groq w n client (chat_args request) = inr completion ->
  choices completion = choice :: rest ->
  content (message choice) = Some a ->
  exists r,
    fst (run (query answer_none_text (Some client) request) w n) = Returned r /\
    (context_used r = true <-> exists d, context request = Some d /\ d <> ∅) /\
    (context request = None -> context_used r = false) /\
    (context request = Some ∅ -> context_used r = false).
Proof.
  intros Hcall Hchoices Hcontent.
  rewrite (run_query_success _ _ _ _ _ _ _ _ _ Hcall Hchoices Hcontent).
  eexists. split; [reflexivity|]. cbn.
  split; [apply bool_of_context_true|].
  split; intros ->; reflexivity.
Qed.

Lemma query_context_used_witness :
  exists r,
    fst (run (query "" (Some sample_client)
                {| question := "How do I send money?";
                   context := Some {["country" := AStr "MEX"]} |})
             (still_world (inr (completion_of (Some "ok")))) 0) = Returned r /\
    context_used r = true.
Proof.
  destruct (query_context_used "" (still_world (inr (completion_of (Some "ok")))) 0
              sample_client
              {| question := "How do I send money?";
                 context := Some {["country" := AStr "MEX"]} |}
              (completion_of (Some "ok"))
              {| message := {| content := Some "ok" |} |} [] "ok"
              eq_refl eq_refl eq_refl) as (r & Hr & Hiff & _).
  exists r. split; [exact Hr|].
  apply Hiff. eexists. split; [reflexivity|].
  intros H. apply (f_equal (fun m => m !! "country")) in H. discriminate H.
Defined.

(** C3: when [GROQ_API_KEY] is unset (or empty) at process start, the
    handler returns, for every question, the fixed sentence around the
    question text, which occurs in it verbatim, with intent
    "informational", sources [["system"]], confidence 0.5 and
    [context_used] false; the only request it makes is one clock read. *)
Theorem query_without_credential (answer_none_text : string)
    (getenv : string -> option string) (w : World) (n : nat)
    (request : QueryRequest) :
  getenv "GROQ_API_KEY" = None \/ getenv "GROQ_API_KEY" = Some "" ->
  exists a,
    run (query answer_none_text (groq_client getenv) request) w n =
    (Returned
       {| answer := a;
          intent := "informational";
          sources := ["system"];
          context_used := false;
          confidence := 0.5%float;
          timestamp := clock w n |},
     [EvUtcNow (clock w n)]) /\
    a = "I received your question: '" +:+ question request
        +:+ "'. To provide AI-powered answers, please configure GROQ_API_KEY." /\
    substring_of (question request) a.
Proof.
  intros Henv.
  assert (groq_client getenv = None) as ->.
  { unfold groq_client. destruct Henv as [-> | ->]; reflexivity. }
  rewrite run_query_fallback. eexists. split; [reflexivity|].
  split; [reflexivity|].
  exists "I received your question: '",
         "'. To provide AI-powered answers, please configure GROQ_API_KEY.".
  reflexivity.
Qed.

Lemma query_without_credential_witness :
  exists a,
    fst (run (query "" (groq_client (fun _ => None))
                {| question := "What is Wise?"; context := None |})
             (still_world (inr (completion_of (Some "ok")))) 0)
    = Returned
        {| answer := a; intent := "informational"; sources := ["system"];
           context_used := false; confidence := 0.5%float;
           timestamp := "2025-01-01T00:00:00" |} /\
    substring_of "What is Wise?" a.
Proof.
  destruct (query_without_credential "" (fun _ => None)
              (still_world (inr (completion_of (Some "ok")))) 0
              {| question := "What is Wise?"; context := None |}
              (or_introl eq_refl)) as (a & Hrun & _ & Hsub).
  exists a. split; [now rewrite Hrun | exact Hsub].
Defined.

(** C4: when the call to the Groq service raises [e], the handler raises
    [HTTPException] with status 500 and detail [str(e)]; it returns no
    response, and the failed call is the only request of the run: it is not
    tried again and nothing follows it. *)
Theorem query_call_raises (answer_none_text : string) (w : World) (n : nat)
    (client : Groq) (request : QueryRequest) (e : Exception) :
  groq w n client (chat_args request) = inl e ->
  exists tr,
    run (query answer_none_text (Some client) request) w n =
      (Raised {| status_code := 500; detail := str e |}, tr) /\
    tr = [EvChatCreate client (chat_args request) (inl e)] /\
    chat_calls tr = [chat_args request].
Proof.
  intros Hcall. rewrite (run_query_raises _ _ _ _ _ _ Hcall).
  eexists. split; [reflexivity|]. split; reflexivity.
Qed.

Lemma query_call_raises_witness :
  run (query "" (Some sample_client)
         {| question := "What is Wise?"; context := None |})
      (still_world (inl (mkException "APIConnectionError" "Connection error."))) 0
  = (Raised {| status_code := 500; detail := "Connection error." |},
     [EvChatCreate sample_client
        (chat_args {| question := "What is Wise?"; context := None |})
        (inl (mkException "APIConnectionError" "Connection error."))]).
Proof.
  destruct (query_call_raises ""
              (still_world (inl (mkException "APIConnectionError" "Connection error."))) 0
              sample_client {| question := "What is Wise?"; context := None |}
              (mkException "APIConnectionError" "Connection error.")
              eq_refl) as (tr & Hrun & -> & _).
  exact Hrun.
Defined.

(** ** [GET /api/v1/rates] *)

Lemma rates_lookup_None (key : string) :
  key ∉ ["USD-MXN"; "USD-COL"; "USD-BRL"] -> rates !! key = None.
Proof. intros H. apply not_elem_of_list_to_map_1. exact H. Qed.

Lemma has_dash_key (f t : string) : has_dash (f +:+ String "-" t) = true.
Proof.
  induction f as [|c f IH]; [reflexivity|].
  rewrite append_String. cbn [has_dash]. rewrite IH. apply orb_true_r.
Qed.

(** A key [p-s] with no further [-] comes from the pair [(p, s)] only. *)
Lemma key_split (p s f t : string) :
  has_dash p = false -> has_dash s = false ->
  f +:+ "-" +:+ t = p +:+ "-" +:+ s -> f = p /\ t = s.
Proof.
  intros Hp Hs. revert f. induction p as [|c p IH]; intros [|d f] H;
    repeat rewrite ?append_String, ?append_empty in H.
  - injection H as Hrest. split; [reflexivity | exact Hrest].
  - injection H as Hhead Hrest.
    rewrite <- Hrest, has_dash_key in Hs. discriminate Hs.
  - injection H as Hhead Hrest. rewrite <- Hhead in Hp. discriminate Hp.
  - injection H as Hhead Hrest.
    cbn [has_dash] in Hp. apply orb_false_elim in Hp as [_ Hp].
    destruct (IH Hp _ Hrest) as [-> ->]. rewrite Hhead. split; reflexivity.
Qed.

Lemma key_not_in_table (f t : string) :
  (f, t) ∉ [("USD", "MXN"); ("USD", "COL"); ("USD", "BRL")] ->
  f +:+ "-" +:+ t ∉ ["USD-MXN"; "USD-COL"; "USD-BRL"].
Proof.
  intros Hpair Hkey. apply Hpair. clear Hpair.
  rewrite !elem_of_cons in Hkey. rewrite !elem_of_cons.
  destruct Hkey as [H | [H | [H | H]]].
  - apply (key_split "USD" "MXN") in H as [-> ->]; auto.
  - apply (key_split "USD" "COL") in H as [-> ->]; auto.
  - apply (key_split "USD" "BRL") in H as [-> ->]; auto.
  - apply elem_of_nil in H. destruct H.
Qed.

Lemma rate_of_run (from_currency to_currency : string) (w : World) (n : nat) :
  field "rate" (run (get_exchange_rates from_currency to_currency) w n) =
  Some (default (AFloat 1.0) (rates !! (from_currency +:+ "-" +:+ to_currency))).
Proof. reflexivity. Qed.

(** C5: the rate from USD to MXN is 17.5, and a pair whose key [from-to]
    is none of the three keys of the table, which is every pair other than
    USD with MXN, COL or BRL, gets rate 1.0. *)
Theorem rates_known_and_default (w : World) (n : nat) :
  field "rate" (run (get_exchange_rates "USD" "MXN") w n) = Some (AFloat 17.5) /\
  (forall from_currency to_currency,
     from_currency +:+ "-" +:+ to_currency ∉ ["USD-MXN"; "USD-COL"; "USD-BRL"] ->
     field "rate" (run (get_exchange_rates from_currency to_currency) w n)
       = Some (AFloat 1.0)) /\
  (forall from_currency to_currency,
     (from_currency, to_currency) ∉ [("USD", "MXN"); ("USD", "COL"); ("USD", "BRL")] ->
     field "rate" (run (get_exchange_rates from_currency to_currency) w n)
       = Some (AFloat 1.0)).
Proof.
  split; [reflexivity|].
  assert (forall f t, f +:+ "-" +:+ t ∉ ["USD-MXN"; "USD-COL"; "USD-BRL"] ->
            field "rate" (run (get_exchange_rates f t) w n) = Some (AFloat 1.0))
    as Hkey.
  { intros f t H. rewrite rate_of_run, (rates_lookup_None _ H). reflexivity. }
  split; [exact Hkey|].
  intros f t H. apply Hkey, key_not_in_table, H.
Qed.

Lemma rates_known_and_default_witness :
  field "rate" (run (get_exchange_rates "EUR" "USD")
                    (still_world (inr (completion_of None))) 0)
  = Some (AFloat 1.0).
Proof.
  apply (proj2 (proj2 (rates_known_and_default
                         (still_world (inr (completion_of None))) 0))
           "EUR" "USD").
  intros Hin. repeat (apply elem_of_cons in Hin as [Hin|Hin]; [discriminate Hin|]).
  apply elem_of_nil in Hin. exact Hin.
Defined.

(** C10: the key looked up is exactly [from_currency + "-" + to_currency]:
    the reverse of each pair of the table, and a pair of the table written
    in lower case, get the default 1.0, while USD to MXN gets 17.5. *)
Theorem rates_key_is_exact (w : World) (n : nat) :
  (forall from_currency to_currency,
     field "rate" (run (get_exchange_rates from_currency to_currency) w n) =
     Some (default (AFloat 1.0)
             (rates !! (from_currency +:+ "-" +:+ to_currency)))) /\
  field "rate" (run (get_exchange_rates "USD" "MXN") w n) = Some (AFloat 17.5) /\
  field "rate" (run (get_exchange_rates "MXN" "USD") w n) = Some (AFloat 1.0) /\
  field "rate" (run (get_exchange_rates "COL" "USD") w n) = Some (AFloat 1.0) /\
  field "rate" (run (get_exchange_rates "BRL" "USD") w n) = Some (AFloat 1.0) /\
  field "rate" (run (get_exchange_rates "usd" "mxn") w n) = Some (AFloat 1.0).
Proof.
  split; [intros f t; apply rate_of_run|].
  repeat split; reflexivity.
Qed.

(** ** [POST /api/v1/compare] *)

(** C6: for amount 100 from USA to MEX the comparison lists Wise with fee
    1.0 (the binary64 product [100 * 0.01]) and Remitly with fee 3.99, and
    names Wise as the best rate and Remitly as the fastest. *)
Theorem compare_100_USA_MEX (w : World) (n : nat) :
  let res := run (compare_providers 100 "USA" "MEX") w n in
  exists wise remitly : gmap string Any,
    field "comparison" res = Some (AList [ADict wise; ADict remitly]) /\
    wise !! "provider" = Some (AStr "Wise") /\
    wise !! "fee" = Some (AFloat 1.0) /\
    remitly !! "provider" = Some (AStr "Remitly") /\
    remitly !! "fee" = Some (AFloat 3.99) /\
    field "best_rate" res = Some (AStr "Wise") /\
    field "fastest" res = Some (AStr "Remitly").
Proof.
  cbv zeta. eexists _, _. split; [reflexivity|].
  repeat split; vm_compute; reflexivity.
Qed.

(** C8: the countries do not reach the response of the comparison: two
    runs with the same amount, whatever their countries and whenever they
    happen, return the same dictionary and make no request. *)
Theorem compare_ignores_countries (amount : pyfloat)
    (from1 to1 from2 to2 : string) (w1 w2 : World) (n1 n2 : nat) :
  run (compare_providers amount from1 to1) w1 n1 =
  run (compare_providers amount from2 to2) w2 n2 /\
  snd (run (compare_providers amount from1 to1) w1 n1) = [].
Proof. split; reflexivity. Qed.

(** ** [GET /api/v1/providers] and [GET /api/v1/countries] *)

(** C7: each of the two handlers returns the same list of five entries in
    every run, with [total] 5. *)
Theorem providers_and_countries_fixed :
  exists ps cs : list Any,
    List.length ps = 5 /\ List.length cs = 5 /\
    forall (w : World) (n : nat),
      field "providers" (run get_providers w n) = Some (AList ps) /\
      field "total" (run get_providers w n) = Some (AInt 5) /\
      field "countries" (run get_countries w n) = Some (AList cs) /\
      field "total" (run get_countries w n) = Some (AInt 5).
Proof.
  eexists _, _. split; [|split]; [| |intros w n; repeat split; reflexivity];
    reflexivity.
Qed.

(** ** [POST /api/v1/recommend] *)

Lemma recommendation_of_run (amount : pyfloat) (from_country to_country : string)
    (priority : option string) (w : World) (n : nat) :
  field "recommendation"
    (run (get_recommendation amount from_country to_country priority) w n) =
  Some (ADict (dict
    [ ("provider",
       AStr (if String.eqb (default "cost" priority) "cost" then "Wise" else "Remitly"));
      ("reason", AStr ("Best option for " +:+ default "cost" priority));
      ("estimated_cost",
       AFloat (if String.eqb (default "cost" priority) "cost"
               then amount * 0.01 else 3.99)) ])).
Proof. reflexivity. Qed.

(** C9: every priority other than the exact string "cost" gets Remitly
    with estimated cost 3.99; "cost" (also as the default of a priority
    left out) gets Wise with estimated cost [amount * 0.01]; and Wise is
    recommended for no other priority. *)
Theorem recommendation_by_priority (amount : pyfloat)
    (from_country to_country : string) (w : World) (n : nat) :
  (forall priority : string,
     priority <> "cost" ->
     exists rec : gmap string Any,
       field "recommendation"
         (run (get_recommendation amount from_country to_country (Some priority)) w n)
         = Some (ADict rec) /\
       rec !! "provider" = Some (AStr "Remitly") /\
       rec !! "estimated_cost" = Some (AFloat 3.99)) /\
  (forall priority : option string,
     priority = Some "cost" \/ priority = None ->
     exists rec : gmap string Any,
       field "recommendation"
         (run (get_recommendation amount from_country to_country priority) w n)
         = Some (ADict rec) /\
       rec !! "provider" = Some (AStr "Wise") /\
       rec !! "estimated_cost" = Some (AFloat (amount * 0.01))) /\
  (forall (priority : string) (rec : gmap string Any),
     field "recommendation"
       (run (get_recommendation amount from_country to_country (Some priority)) w n)
       = Some (ADict rec) ->
     rec !! "provider" = Some (AStr "Wise") ->
     priority = "cost").
Proof.
  split; [|split].
  - intros priority Hne. rewrite recommendation_of_run.
    change (default "cost" (Some priority)) with priority.
    apply String.eqb_neq in Hne. rewrite Hne.
    eexists. split; [reflexivity|]. split; reflexivity.
  - intros priority [-> | ->]; rewrite recommendation_of_run;
      eexists; (split; [reflexivity|]); split; reflexivity.
  - intros priority rec. rewrite recommendation_of_run.
    change (default "cost" (Some priority)) with priority.
    destruct (String.eqb_spec priority "cost") as [-> | Hne]; [reflexivity|].
    intros [= <-]. intros H. vm_compute in H. discriminate H.
Qed.

Lemma recommendation_by_priority_witness :
  exists rec : gmap string Any,
    field "recommendation"
      (run (get_recommendation 250 "USA" "MEX" (Some "COST"))
           (still_world (inr (completion_of None))) 0) = Some (ADict rec) /\
    rec !! "provider" = Some (AStr "Remitly") /\
    rec !! "estimated_cost" = Some (AFloat 3.99).
Proof.
  apply (proj1 (recommendation_by_priority 250 "USA" "MEX"
                  (still_world (inr (completion_of None))) 0) "COST").
  discriminate.
Defined.

(** * Further properties of the handlers *)

(** ** [POST /api/v1/query]: the other paths *)

Lemma lower_app (a b : string) : lower (a +:+ b) = lower a +:+ lower b.
Proof.
  induction a as [|c a IH]; [reflexivity|].
  rewrite append_String. cbn [lower]. rewrite append_String, IH. reflexivity.
Qed.

(** X1: a completion without choices makes [choices[0]] fail: the handler
    raises status 500 with the text of the [IndexError], after its one call
    and before any clock read. *)
Theorem query_empty_choices (answer_none_text : string) (w : World) (n : nat)
    (client : Groq) (request : QueryRequest) (completion : ChatCompletion) :
  groq w n client (chat_args request) = inr completion ->
  choices completion = [] ->
  run (query answer_none_text (Some client) request) w n =
  (Raised {| status_code := 500; detail := "list index out of range" |},
   [EvChatCreate client (chat_args request) (inr completion)]).
Proof.
  intros Hcall Hchoices. cbn. rewrite Hcall. cbn. rewrite Hchoices. reflexivity.
Qed.

Lemma query_empty_choices_witness :
  fst (run (query "" (Some sample_client)
              {| question := "What is Wise?"; context := None |})
           (still_world (inr {| choices := [] |})) 0)
  = Raised {| status_code := 500; detail := "list index out of range" |}.
Proof.
  rewrite (query_empty_choices "" (still_world (inr {| choices := [] |})) 0
             sample_client {| question := "What is Wise?"; context := None |}
             {| choices := [] |} eq_refl eq_refl).
  reflexivity.
Defined.

(** X2: a first choice whose content is [None] fails the validation of
    [QueryResponse]: the handler raises status 500 with the text of the
    validation error, having made its call and read the clock. *)
Theorem query_none_content (answer_none_text : string) (w : World) (n : nat)
    (client : Groq) (request : QueryRequest) (completion : ChatCompletion)
    (choice : Choice) (rest : list Choice) :
  groq w n client (chat_args request) = inr completion ->
  choices completion = choice :: rest ->
  content (message choice) = None ->
  run (query answer_none_text (Some client) request) w n =
  (Raised {| status_code := 500; detail := answer_none_text |},
   [EvChatCreate client (chat_args request) (inr completion);
    EvUtcNow (clock w (S n))]).
Proof.
  intros Hcall Hchoices Hcontent. cbn.
  rewrite Hcall. cbn. rewrite Hchoices. cbn. rewrite Hcontent. reflexivity.
Qed.

Lemma query_none_content_witness :
  fst (run (query "1 validation error for QueryResponse" (Some sample_client)
              {| question := "What is Wise?"; context := None |})
           (still_world (inr (completion_of None))) 0)
  = Raised {| status_code := 500; detail := "1 validation error for QueryResponse" |}.
Proof.
  rewrite (query_none_content "1 validation error for QueryResponse"
             (still_world (inr (completion_of None))) 0
             sample_client {| question := "What is Wise?"; context := None |}
             (completion_of None) {| message := {| content := None |} |} []
             eq_refl eq_refl eq_refl).
  reflexivity.
Defined.

Lemma query_chat_calls (answer_none_text : string) (groq_client : option Groq)
    (w : World) (n : nat) (request : QueryRequest) :
  chat_calls (snd (run (query answer_none_text groq_client request) w n)) =
  match groq_client with
  | None => []
  | Some _ => [chat_args request]
  end.
Proof.
  destruct groq_client as [client|]; [|reflexivity].
  cbn. destruct (groq w n client (chat_args request)) as [e|completion]; cbn;
    [reflexivity|].
  destruct (choices completion) as [|choice rest]; cbn; [reflexivity|].
  destruct (content (message choice)); reflexivity.
Qed.

(** X3: whatever the Groq service does, a run of [query] either returns a
    response or raises with status 500, never another status; it calls the
    service once when there is a client and never otherwise, and reads the
    clock at most once. *)
Theorem query_outcomes (answer_none_text : string) (groq_client : option Groq)
    (w : World) (n : nat) (request : QueryRequest) :
  let res := run (query answer_none_text groq_client request) w n in
  ((exists r, fst res = Returned r) \/
   (exists d, fst res = Raised {| status_code := 500; detail := d |})) /\
  chat_calls (snd res) =
    match groq_client with
    | None => []
    | Some _ => [chat_args request]
    end /\
  (List.length (clock_reads (snd res)) <= 1)%nat.
Proof.
  cbv zeta. split; [|split; [apply query_chat_calls|]];
    destruct groq_client as [client|]; cbn; eauto;
    destruct (groq w n client (chat_args request)) as [e|completion]; cbn;
    eauto;
    destruct (choices completion) as [|choice rest]; cbn; eauto;
    destruct (content (message choice)) as [a|]; cbn; eauto.
Qed.

(** X4: on success the answer is the content of the first choice, whatever
    choices follow it, the sources are the two fixed labels, the confidence
    is 0.85, and the timestamp is the clock reading taken after the call. *)
Theorem query_success_response (answer_none_text : string) (w : World) (n : nat)
    (client : Groq) (request : QueryRequest) (completion : ChatCompletion)
    (choice : Choice) (rest : list Choice) (a : string) :
  groq w n client (chat_args request) = inr completion ->
  choices completion = choice :: rest ->
  content (message choice) = Some a ->
  exists r,
    run (query answer_none_text (Some client) request) w n =
    (Returned r,
     [EvChatCreate client (chat_args request) (inr completion);
      EvUtcNow (clock w (S n))]) /\
    answer r = a /\
    sources r = ["groq_ai"; "general_knowledge"] /\
    confidence r = 0.85%float /\
    timestamp r = clock w (S n).
Proof.
  intros Hcall Hchoices Hcontent.
  rewrite (run_query_success _ _ _ _ _ _ _ _ _ Hcall Hchoices Hcontent).
  eexists. split; [reflexivity|]. repeat split; reflexivity.
Qed.

Lemma query_success_response_witness :
  exists r,
    fst (run (query "" (Some sample_client)
                {| question := "What is Wise?"; context := None |})
             (still_world (inr {| choices :=
                [ {| message := {| content := Some "first" |} |};
                  {| message := {| content := Some "second" |} |} ] |})) 0)
    = Returned r /\ answer r = "first".
Proof.
  destruct (query_success_response ""
              (still_world (inr {| choices :=
                [ {| message := {| content := Some "first" |} |};
                  {| message := {| content := Some "second" |} |} ] |})) 0
              sample_client {| question := "What is Wise?"; context := None |}
              _ _ _ "first" eq_refl eq_refl eq_refl)
    as (r & Hrun & Hanswer & _).
  exists r. split; [now rewrite Hrun | exact Hanswer].
Defined.

(** X5: the context never reaches the Groq service and changes nothing but
    [context_used]: two requests with the same question make the same
    requests, and either raise the same error or return responses that
    agree on every other field. *)
Theorem query_context_not_sent (answer_none_text : string)
    (groq_client : option Groq) (w : World) (n : nat) (q : string)
    (c1 c2 : option (gmap string Any)) :
  let res1 := run (query answer_none_text groq_client
                     {| question := q; context := c1 |}) w n in
  let res2 := run (query answer_none_text groq_client
                     {| question := q; context := c2 |}) w n in
  snd res1 = snd res2 /\
  match fst res1, fst res2 with
  | Returned r1, Returned r2 => same_but_context_used r1 r2
  | Raised e1, Raised e2 => e1 = e2
  | _, _ => False
  end.
Proof.
  unfold same_but_context_used. destruct groq_client as [client|]; cbn.
  - change (chat_args {| question := q; context := c2 |})
      with (chat_args {| question := q; context := c1 |}).
    destruct (groq w n client (chat_args {| question := q; context := c1 |}))
      as [e|completion]; cbn; [split; reflexivity|].
    destruct (choices completion) as [|choice rest]; cbn; [split; reflexivity|].
    destruct (content (message choice)) as [a|]; cbn;
      [split; [reflexivity | repeat split] | split; reflexivity].
  - split; [reflexivity | repeat split].
Qed.

(** X6: the keyword test ignores case and position: a question with any
    capitalisation of "compare" anywhere in it gets intent "comparison" on
    the success path. *)
Theorem query_intent_any_case (answer_none_text : string) (w : World) (n : nat)
    (client : Groq) (request : QueryRequest) (completion : ChatCompletion)
    (choice : Choice) (rest : list Choice) (a : string)
    (pre word post : string) :
  groq w n client (chat_args request) = inr completion ->
  choices completion = choice :: rest ->
  content (message choice) = Some a ->
  question request = pre +:+ word +:+ post ->
  lower word = "compare" ->
  exists r,
    fst (run (query answer_none_text (Some client) request) w n) = Returned r /\
    intent r = "comparison".
Proof.
  intros Hcall Hchoices Hcontent Hq Hword.
  rewrite (run_query_success _ _ _ _ _ _ _ _ _ Hcall Hchoices Hcontent).
  eexists. split; [reflexivity|]. cbn.
  assert (str_in "compare" (lower (question request)) = true) as ->;
    [|reflexivity].
  apply str_in_spec. exists (lower pre), (lower post).
  rewrite Hq, !lower_app, Hword. reflexivity.
Qed.

Lemma query_intent_any_case_witness :
  exists r,
    fst (run (query "" (Some sample_client)
                {| question := "Can you ComPARE them?"; context := None |})
             (still_world (inr (completion_of (Some "ok")))) 0) = Returned r /\
    intent r = "comparison".
Proof.
  apply (query_intent_any_case "" (still_world (inr (completion_of (Some "ok")))) 0
           sample_client {| question := "Can you ComPARE them?"; context := None |}
           (completion_of (Some "ok")) {| message := {| content := Some "ok" |} |}
           [] "ok" "Can you " "ComPARE" " them?");
    reflexivity.
Defined.

(** X7: when [GROQ_API_KEY] is set to a non-empty value at process start,
    every run of [query] begins with one call to the Groq service, made by
    the client holding that key, for the fixed model with temperature 0.7
    and at most 1000 tokens; its two messages are the fixed system prompt
    and, as the user's turn, the question verbatim. *)
Theorem query_with_credential (answer_none_text : string)
    (getenv : string -> option string) (key : string) (w : World) (n : nat)
    (request : QueryRequest) :
  getenv "GROQ_API_KEY" = Some key ->
  key <> "" ->
  let client := {| api_key := Some key |} in
  let res := run (query answer_none_text (groq_client getenv) request) w n in
  (exists tr,
     snd res = EvChatCreate client (chat_args request)
                 (groq w n client (chat_args request)) :: tr) /\
  chat_calls (snd res) = [chat_args request] /\
  model (chat_args request) = "llama-3.3-70b-versatile" /\
  temperature (chat_args request) = 0.7%float /\
  max_tokens (chat_args request) = 1000%Z /\
  exists system user : gmap string string,
    messages (chat_args request) = [system; user] /\
    system !! "role" = Some "system" /\
    system !! "content" = Some system_prompt /\
    user !! "role" = Some "user" /\
    user !! "content" = Some (question request).
Proof.
  intros Henv Hkey client res.
  assert (groq_client getenv = Some client) as Hclient.
  { unfold groq_client. rewrite Henv.
    destruct key; [contradiction | reflexivity]. }
  pose proof (query_chat_calls answer_none_text (Some client) w n request)
    as Hcalls.
  subst res. rewrite Hclient. split; [|split; [exact Hcalls|]].
  - cbn. destruct (groq w n client (chat_args request)) as [e|completion]; cbn;
      [eauto|].
    destruct (choices completion) as [|choice rest]; cbn; [eauto|].
    destruct (content (message choice)); cbn; eauto.
  - repeat split. eexists _, _. split; [reflexivity|]. repeat split.
Qed.

Lemma query_with_credential_witness :
  chat_calls
    (snd (run (query "" (groq_client (fun _ => Some "gsk_test"))
                 {| question := "What is Wise?"; context := None |})
              (still_world (inr (completion_of (Some "ok")))) 0))
  = [chat_args {| question := "What is Wise?"; context := None |}].
Proof.
  apply (query_with_credential "" (fun _ => Some "gsk_test") "gsk_test"
           (still_world (inr (completion_of (Some "ok")))) 0
           {| question := "What is Wise?"; context := None |} eq_refl).
  discriminate.
Defined.

(** ** [GET /api/v1/rates]: the whole table *)

(** X8: the rate as a function of the pair: 17.5 for USD to MXN, the
    integer 4200 for USD to COL, 5.2 for USD to BRL, and 1.0 for every
    other pair of strings. *)
Theorem rates_by_pair (from_currency to_currency : string) (w : World) (n : nat) :
  field "rate" (run (get_exchange_rates from_currency to_currency) w n) =
  Some (if decide ((from_currency, to_currency) = ("USD", "MXN")) then AFloat 17.5
        else if decide ((from_currency, to_currency) = ("USD", "COL")) then AInt 4200
        else if decide ((from_currency, to_currency) = ("USD", "BRL")) then AFloat 5.2
        else AFloat 1.0).
Proof.
  repeat case_decide; simplify_eq; try reflexivity.
  rewrite rate_of_run, rates_lookup_None; [reflexivity|].
  apply key_not_in_table. rewrite !elem_of_cons, elem_of_nil. tauto.
Qed.

(** X9: a currency converted to itself, and any conversion that does not
    start from USD, gets rate 1.0. *)
Theorem rates_default_pairs (w : World) (n : nat) :
  (forall currency,
     field "rate" (run (get_exchange_rates currency currency) w n)
       = Some (AFloat 1.0)) /\
  (forall from_currency to_currency,
     from_currency <> "USD" ->
     field "rate" (run (get_exchange_rates from_currency to_currency) w n)
       = Some (AFloat 1.0)).
Proof.
  split.
  - intros c. rewrite rate_of_run, rates_lookup_None; [reflexivity|].
    apply key_not_in_table. rewrite !elem_of_cons, elem_of_nil.
    intros [H | [H | [H | []]]]; injection H as -> H; discriminate H.
  - intros f t Hf. rewrite rate_of_run, rates_lookup_None; [reflexivity|].
    apply key_not_in_table. rewrite !elem_of_cons, elem_of_nil.
    intros [H | [H | [H | []]]]; injection H as H _; contradiction.
Qed.

Lemma rates_default_pairs_witness :
  field "rate" (run (get_exchange_rates "MXN" "COL")
                    (still_world (inr (completion_of None))) 0)
  = Some (AFloat 1.0).
Proof.
  apply (proj2 (rates_default_pairs (still_world (inr (completion_of None))) 0)
           "MXN" "COL").
  discriminate.
Defined.

(** X10: the rates response has exactly the keys from, to, rate and
    timestamp; it repeats the two currencies as given, known or not, and
    its timestamp is the one clock reading of the run. *)
Theorem rates_response_shape (from_currency to_currency : string)
    (w : World) (n : nat) :
  let res := run (get_exchange_rates from_currency to_currency) w n in
  (exists r, fst res = Returned r /\
             dom r = ({["from"; "to"; "rate"; "timestamp"]} : gset string)) /\
  field "from" res = Some (AStr from_currency) /\
  field "to" res = Some (AStr to_currency) /\
  field "timestamp" res = Some (AStr (clock w n)) /\
  snd res = [EvUtcNow (clock w n)].
Proof.
  cbv zeta. split; [|repeat split].
  eexists. split; [reflexivity|].
  rewrite !dom_list_to_map_L. cbn [fmap list_fmap fst]. reflexivity.
Qed.

(** ** [GET /api/v1/regulations] *)

(** X11: the regulations do not depend on the country: every country
    string, known or not, is repeated as given and gets the same three
    items, with the one clock reading of the run under [updated]. *)
Theorem regulations_ignore_country (country : string) (w : World) (n : nat) :
  let res := run (get_regulations country) w n in
  field "country" res = Some (AStr country) /\
  field "regulations" res =
    Some (AList [ AStr "Maximum single transfer limit";
                  AStr "KYC requirements";
                  AStr "Tax implications" ]) /\
  field "updated" res = Some (AStr (clock w n)) /\
  snd res = [EvUtcNow (clock w n)].
Proof. repeat split. Qed.

(** ** All handlers but [query] *)

(** X12: only [query] talks to the Groq service and only [query] can
    raise: each of the other seven handlers returns a dictionary in every
    run, for all arguments, without a call to the service. *)
Theorem only_query_calls_groq (w : World) (n : nat) (amount : pyfloat)
    (a b : string) (priority : option string) :
  returns_without_chat (run root w n) /\
  returns_without_chat (run get_providers w n) /\
  returns_without_chat (run get_countries w n) /\
  returns_without_chat (run (compare_providers amount a b) w n) /\
  returns_without_chat (run (get_recommendation amount a b priority) w n) /\
  returns_without_chat (run (get_exchange_rates a b) w n) /\
  returns_without_chat (run (get_regulations a) w n).
Proof. unfold returns_without_chat. repeat split; eexists; reflexivity. Qed.

(** ** [POST /api/v1/compare] and [POST /api/v1/recommend] together *)

(** X13: the recommendation agrees with the comparison: for every amount
    and priority, the recommended provider is an entry of the comparison
    for the same amount, and its estimated cost is that entry's fee. *)
Theorem recommendation_matches_comparison (amount : pyfloat) (a b a' b' : string)
    (priority : option string) (w : World) (n : nat) :
  exists (rec : gmap string Any) (name : string) (cost : pyfloat)
         (entries : list Any) (entry : Any),
    field "recommendation" (run (get_recommendation amount a b priority) w n)
      = Some (ADict rec) /\
    rec !! "provider" = Some (AStr name) /\
    rec !! "estimated_cost" = Some (AFloat cost) /\
    field "comparison" (run (compare_providers amount a' b') w n)
      = Some (AList entries) /\
    entry ∈ entries /\
    item "provider" entry = Some (AStr name) /\
    item "fee" entry = Some (AFloat cost).
Proof.
  rewrite recommendation_of_run.
  destruct (String.eqb (default "cost" priority) "cost").
  - eexists _, _, _, _, _. split; [reflexivity|].
    split; [reflexivity|]. split; [reflexivity|]. split; [reflexivity|].
    split; [apply list_elem_of_here|]. split; reflexivity.
  - eexists _, _, _, _, _. split; [reflexivity|].
    split; [reflexivity|]. split; [reflexivity|]. split; [reflexivity|].
    split; [apply list_elem_of_further, list_elem_of_here|]. split; reflexivity.
Qed.

(** X14: the recommendation depends on the amount and the priority only:
    the countries do not reach it, a priority left out is the priority
    "cost", and the reason repeats the priority as given, recognised or
    not. *)
Theorem recommendation_inputs (amount : pyfloat) (a b a' b' : string)
    (priority : option string) (w w' : World) (n n' : nat) :
  run (get_recommendation amount a b priority) w n =
  run (get_recommendation amount a' b' priority) w' n' /\
  run (get_recommendation amount a b None) w n =
  run (get_recommendation amount a b (Some "cost")) w n /\
  exists rec : gmap string Any,
    field "recommendation" (run (get_recommendation amount a b priority) w n)
      = Some (ADict rec) /\
    rec !! "reason" = Some (AStr ("Best option for " +:+ default "cost" priority)).
Proof.
  split; [reflexivity|]. split; [reflexivity|].
  rewrite recommendation_of_run. eexists. split; reflexivity.
Qed.

(** X15: in every comparison, each entry's [total_received] is the amount
    times the entry's exchange rate less its fee, [best_rate] names the
    entry with the strictly greater exchange rate and [fastest] the other
    one. *)
Theorem comparison_consistent (amount : pyfloat) (a b : string)
    (w : World) (n : nat) :
  let res := run (compare_providers amount a b) w n in
  exists (best other : Any) (rate_best rate_other : pyfloat),
    field "comparison" res = Some (AList [best; other]) /\
    consistent_quote amount best /\
    consistent_quote amount other /\
    item "provider" best = field "best_rate" res /\
    item "provider" other = field "fastest" res /\
    item "provider" best <> item "provider" other /\
    item "exchange_rate" best = Some (AFloat rate_best) /\
    item "exchange_rate" other = Some (AFloat rate_other) /\
    PrimFloat.ltb rate_other rate_best = true.
Proof.
  cbv zeta. unfold consistent_quote. eexists _, _, _, _.
  split; [reflexivity|].
  split; [eexists _, _, _; repeat split|].
  split; [eexists _, _, _; repeat split|].
  split; [reflexivity|]. split; [reflexivity|].
  split; [vm_compute; discriminate|].
  split; [reflexivity|]. split; reflexivity.
Qed.

(** X16: the amount is not validated.  For amount 0 Wise's fee and total
    are 0 and Remitly's [total_received] is -3.99, below zero; a negative
    amount gets a negative fee. *)
Theorem comparison_edge_amounts (a b : string) (w : World) (n : nat) :
  (exists wise remitly : gmap string Any,
     field "comparison" (run (compare_providers 0 a b) w n)
       = Some (AList [ADict wise; ADict remitly]) /\
     wise !! "fee" = Some (AFloat 0) /\
     wise !! "total_received" = Some (AFloat 0) /\
     remitly !! "total_received" = Some (AFloat (-3.99)) /\
     PrimFloat.ltb (-3.99) 0 = true) /\
  (exists wise remitly : gmap string Any,
     field "comparison" (run (compare_providers (-100) a b) w n)
       = Some (AList [ADict wise; ADict remitly]) /\
     wise !! "fee" = Some (AFloat (-1)) /\
     wise !! "total_received" = Some (AFloat (-1749)) /\
     remitly !! "total_received" = Some (AFloat (-1733.99))).
Proof.
  split; eexists _, _; (split; [reflexivity|]); repeat split;
    vm_compute; reflexivity.
Qed.

(** ** The tables of providers and countries *)

(** X17: the provider table has distinct ids and distinct names, and every
    provider serves at least one country; the country table has distinct
    codes of three characters. *)
Theorem tables_wellformed (w : World) (n : nat) :
  (exists ps : list Any,
     field "providers" (run get_providers w n) = Some (AList ps) /\
     map (item "id") ps =
       map (fun s => Some (AStr s))
           ["wise"; "remitly"; "western_union"; "moneygram"; "xoom"] /\
     NoDup ["wise"; "remitly"; "western_union"; "moneygram"; "xoom"] /\
     map (item "name") ps =
       map (fun s => Some (AStr s))
           ["Wise"; "Remitly"; "Western Union"; "MoneyGram"; "Xoom"] /\
     NoDup ["Wise"; "Remitly"; "Western Union"; "MoneyGram"; "Xoom"] /\
     Forall (fun p => exists c cs, item "countries" p = Some (AList (c :: cs))) ps) /\
  (exists cs : list Any,
     field "countries" (run get_countries w n) = Some (AList cs) /\
     map (item "code") cs =
       map (fun s => Some (AStr s)) ["USA"; "MEX"; "COL"; "BRA"; "ARG"] /\
     NoDup ["USA"; "MEX"; "COL"; "BRA"; "ARG"] /\
     Forall (fun s => String.length s = 3%nat) ["USA"; "MEX"; "COL"; "BRA"; "ARG"]).
Proof.
  split; eexists; (split; [reflexivity|]).
  - split; [reflexivity|]. split; [apply (bool_decide_unpack _); reflexivity|].
    split; [reflexivity|]. split; [apply (bool_decide_unpack _); reflexivity|].
    repeat constructor; eexists _, _; reflexivity.
  - split; [reflexivity|]. split; [apply (bool_decide_unpack _); reflexivity|].
    repeat constructor.
Qed.

(** X18: every provider that the comparison quotes or the recommendation
    names, for any amount and priority, is listed by [get_providers]. *)
Theorem quoted_providers_are_listed (amount : pyfloat) (a b : string)
    (priority : option string) (w : World) (n : nat) :
  (exists entries : list Any,
     field "comparison" (run (compare_providers amount a b) w n)
       = Some (AList entries) /\
     Forall (fun e => item "provider" e ∈ listed_names (run get_providers w n))
            entries) /\
  (exists rec : gmap string Any,
     field "recommendation" (run (get_recommendation amount a b priority) w n)
       = Some (ADict rec) /\
     rec !! "provider" ∈ listed_names (run get_providers w n)).
Proof.
  split.
  - eexists. split; [reflexivity|].
    repeat constructor.
  - rewrite recommendation_of_run. eexists. split; [reflexivity|].
    destruct (String.eqb (default "cost" priority) "cost"); repeat constructor.
Qed.
